(** * The aggregate-function interface and its generic state helper

    A shallow embedding of
    [dbms/include/DB/AggregateFunctions/IAggregateFunction.h]:
    the abstract class [IAggregateFunction], the three methods it gives a
    default body ([setParameters], [serializeText], [deserializeMergeText],
    plus [canBeFinal]), and the class template [IAggregateFunctionHelper<T>].

    The descriptor object holds no aggregation data; the states live at
    addresses handed in by the caller.  Methods are modelled by explicit
    state passing over what their C++ signature lets them reach. *)

From Stdlib Require Import ZArith NArith String List Lia.
From Stdlib.Strings Require Import Byte.
From stdpp Require Import base option list strings gmap.

Local Open Scope N_scope.

(** ** Types taken from other headers *)

(** Modelled from the spec: [DB/Core/Field.h] (reached through
    [DB/Core/Row.h]) is not among the sources.  A [Field] is one dynamically
    typed value, an [Array] is a sequence of them. *)
Inductive Field : Type :=
| Null
| UInt64 (n : N)
| Int64 (z : Z)
| Text (s : string).

Definition Array : Type := list Field.

(** Modelled from the spec: [DB/DataTypes/IDataType.h] is not among the
    sources.  A data type is known here by its name only. *)
Definition DataTypePtr : Type := string.
Definition DataTypes : Type := list DataTypePtr.

(** Modelled from the spec: [IColumn], [WriteBuffer] and [ReadBuffer] are not
    among the sources.  A column is the sequence of its values, a write
    buffer the bytes written so far, a read buffer the bytes not yet read. *)
Definition IColumn : Type := list Field.
Definition WriteBuffer : Type := list byte.
Definition ReadBuffer : Type := list byte.

(** [typedef char * AggregateDataPtr; typedef const char * ConstAggregateDataPtr;] *)
Abbreviation AggregateDataPtr := N (only parsing).
Abbreviation ConstAggregateDataPtr := N (only parsing).

Module ErrorCodes.
(** Modelled from the spec: [DB/Core/ErrorCodes.h] is not among the
    sources, so the two codes the header uses stay symbolic. *)
Inductive t : Type :=
| AGGREGATE_FUNCTION_DOESNT_ALLOW_PARAMETERS
| NOT_IMPLEMENTED
| OTHER (code : Z).
End ErrorCodes.

(** [Exception(message, code)] *)
Record Exception : Type := { message : string; code : ErrorCodes.t }.

(** A message names a function when the function's name occurs in it. *)
Definition names (msg name : string) : Prop :=
  ∃ before after, msg = before +:+ name +:+ after.

(** ** Outcomes and the state-passing monad *)

(** A call returns, throws, or went through [data(place)] at an address
    where no object with a value lives (no behaviour is defined then). *)
Inductive Outcome (A : Type) : Type :=
| Returned (a : A)
| Thrown (e : Exception)
| PreconditionViolation.
Arguments Returned {A} a.
Arguments Thrown {A} e.
Arguments PreconditionViolation {A}.

(** What a call has done to the state stays done when it throws. *)
Definition M (S A : Type) : Type := S → Outcome A * S.

Definition ret {S A} (a : A) : M S A := λ s, (Returned a, s).
Definition bind {S A B} (m : M S A) (k : A → M S B) : M S B :=
  λ s, match m s with
       | (Returned a, s') => k a s'
       | (Thrown e, s') => (Thrown e, s')
       | (PreconditionViolation, s') => (PreconditionViolation, s')
       end.
Definition get {S} : M S S := λ s, (Returned s, s).
Definition put {S} (s : S) : M S unit := λ _, (Returned tt, s).
Definition throw {S A} (e : Exception) : M S A := λ s, (Thrown e, s).

Declare Scope call_scope.
Delimit Scope call_scope with call.
Notation "x <- m ;; k" := (bind m (λ x, k))
  (at level 100, m at next level, right associativity) : call_scope.
Notation "m ;; k" := (bind m (λ _, k))
  (at level 100, right associativity) : call_scope.

(** Run a computation on one component of a pair. *)
Definition on_fst {S B A} (m : M S A) : M (S * B) A :=
  λ '(s, b), let '(r, s') := m s in (r, (s', b)).
Definition on_snd {S B A} (m : M B A) : M (S * B) A :=
  λ '(s, b), let '(r, b') := m b in (r, (s, b')).

(** ** class IAggregateFunction *)

Module IAggregateFunction.

(** The virtual methods.  [Self] is the descriptor object ([this]), [Data]
    the typed view of the bytes of one state
    ([*reinterpret_cast<Data*>(place)]).

    - A non-[const] method may change [this]: it is an [M Self].
    - [create] and [destroy] begin and end the life of the object at an
      address, so they act on the memory.
    - Every other method works on the object living at the address it is
      given: through an [AggregateDataPtr] it may change that object
      ([M Data]); through a [ConstAggregateDataPtr] it only reads it (the
      value is passed); buffers and columns passed by reference are state.
    - A method with a default body has an optional override. *)
Record vtable (Self Data : Type) : Type := {
  getName : Self → string;
  setArguments : DataTypes → M Self unit;
  setParameters : option (Array → M Self unit);
  getReturnType : Self → DataTypePtr;
  create : Self → AggregateDataPtr → M (gmap N Data) unit;
  destroy : Self → AggregateDataPtr → gmap N Data → gmap N Data;
  hasTrivialDestructor : Self → bool;
  sizeOfData : Self → N;
  alignOfData : Self → N;
  add : Self → list IColumn → N → M Data unit;
  merge : Self → Data → M Data unit;
  serialize : Self → Data → M WriteBuffer unit;
  deserializeMerge : Self → M (Data * ReadBuffer) unit;
  serializeText : option (Self → Data → M WriteBuffer unit);
  deserializeMergeText : option (Self → M (Data * ReadBuffer) unit);
  insertResultInto : Self → Data → M IColumn unit;
  canBeFinal : option (Self → bool)
}.
Arguments getName {Self Data} _ _.
Arguments setArguments {Self Data} _ _ _.
Arguments setParameters {Self Data} _.
Arguments getReturnType {Self Data} _ _.
Arguments create {Self Data} _ _ _ _.
Arguments destroy {Self Data} _ _ _ _.
Arguments hasTrivialDestructor {Self Data} _ _.
Arguments sizeOfData {Self Data} _ _.
Arguments alignOfData {Self Data} _ _.
Arguments add {Self Data} _ _ _ _ _.
Arguments merge {Self Data} _ _ _ _.
Arguments serialize {Self Data} _ _ _ _.
Arguments deserializeMerge {Self Data} _ _ _.
Arguments serializeText {Self Data} _.
Arguments deserializeMergeText {Self Data} _.
Arguments insertResultInto {Self Data} _ _ _ _.
Arguments canBeFinal {Self Data} _.

(** The descriptor and the memory holding the states: [memory w !! place]
    is the object whose value can be read at [place], if there is one.  Two
    pieces of ghost state record what the header's comments ask of the
    caller: whether [setArguments] has returned (it "must be called before
    the other calls"), and which states have been updated since [create]
    (an "empty" state "must not be serialized").  No call consults them:
    nothing in the header checks either; statements use them to speak of a
    bound descriptor and of a non-empty state. *)
Record World (Self Data : Type) : Type := {
  self : Self;
  memory : gmap N Data;
  arguments_set : bool;
  updated : gset N
}.
Arguments self {Self Data} _.
Arguments memory {Self Data} _.
Arguments arguments_set {Self Data} _.
Arguments updated {Self Data} _.
Arguments Build_World {Self Data} _ _ _ _.

Section Defaults.
Context {Self Data : Type} (f : vtable Self Data).

(** [throw Exception("Aggregate function " + getName() + " doesn't allow parameters.",
         ErrorCodes::AGGREGATE_FUNCTION_DOESNT_ALLOW_PARAMETERS);] *)
Definition default_setParameters (params : Array) : M Self unit :=
  (this <- get ;;
   throw {| message := "Aggregate function " +:+ getName f this +:+ " doesn't allow parameters.";
            code := ErrorCodes.AGGREGATE_FUNCTION_DOESNT_ALLOW_PARAMETERS |})%call.

(** [throw Exception("Method serializeText is not supported for " + getName() + ".",
         ErrorCodes::NOT_IMPLEMENTED);] *)
Definition default_serializeText (place : ConstAggregateDataPtr)
  : M (World Self Data * WriteBuffer) unit :=
  (st <- get ;;
   throw {| message := "Method serializeText is not supported for " +:+ getName f (self st.1) +:+ ".";
            code := ErrorCodes.NOT_IMPLEMENTED |})%call.

(** [throw Exception("Method deserializeMergeText is not supported for " + getName() + ".",
         ErrorCodes::NOT_IMPLEMENTED);] *)
Definition default_deserializeMergeText (place : AggregateDataPtr)
  : M (World Self Data * ReadBuffer) unit :=
  (st <- get ;;
   throw {| message := "Method deserializeMergeText is not supported for " +:+ getName f (self st.1) +:+ ".";
            code := ErrorCodes.NOT_IMPLEMENTED |})%call.

(** [virtual bool canBeFinal() const { return true; }] *)
Definition default_canBeFinal (this : Self) : bool := true.
End Defaults.

End IAggregateFunction.

(** ** Calls through the interface

    [Call.m f args] is the virtual call [f->m(args)] as the engine makes it,
    with addresses: it dispatches to the override or to the default body,
    finds the object at the address, and keeps the ghost state.  A call that
    needs the object at an address where none lives is a
    [PreconditionViolation]. *)

Module Call.
Import IAggregateFunction.

Section Calls.
Context {Self Data : Type} (f : vtable Self Data).

Definition getName (w : World Self Data) : string :=
  IAggregateFunction.getName f (self w).

Definition canBeFinal (w : World Self Data) : bool :=
  default default_canBeFinal (IAggregateFunction.canBeFinal f) (self w).

(** The object at [place] has been changed to [d]. *)
Definition store (place : AggregateDataPtr) (d : Data) (w : World Self Data)
  : World Self Data :=
  Build_World (self w) (<[place := d]> (memory w)) (arguments_set w)
              ({[place]} ∪ updated w).

(** [data(place)], read only. *)
Definition data (place : ConstAggregateDataPtr) : M (World Self Data) Data :=
  λ w, match memory w !! place with
       | Some d => (Returned d, w)
       | None => (PreconditionViolation, w)
       end.

(** Run a method body on the object at [place] and leave there what the
    body made of it. *)
Definition at_place {A} (place : AggregateDataPtr) (body : M Data A)
  : M (World Self Data) A :=
  λ w, match memory w !! place with
       | None => (PreconditionViolation, w)
       | Some d => let '(r, d') := body d in (r, store place d' w)
       end.

(** The same for a body that also works on a buffer passed by reference. *)
Definition at_place_with {B A} (place : AggregateDataPtr) (body : M (Data * B) A)
  : M (World Self Data * B) A :=
  λ '(w, b), match memory w !! place with
             | None => (PreconditionViolation, (w, b))
             | Some d => let '(r, (d', b')) := body (d, b) in
                         (r, (store place d' w, b'))
             end.

Definition setArguments (arguments : DataTypes) : M (World Self Data) unit :=
  λ w, let '(r, this) := IAggregateFunction.setArguments f arguments (self w) in
       (r, Build_World this (memory w)
             (if r is Returned _ then true else arguments_set w) (updated w)).

Definition setParameters (params : Array) : M (World Self Data) unit :=
  λ w, let body := default (default_setParameters f) (IAggregateFunction.setParameters f) in
       let '(r, this) := body params (self w) in
       (r, Build_World this (memory w) (arguments_set w) (updated w)).

(** [create] starts a state anew: none of the updates made at the address
    before count for it. *)
Definition create (place : AggregateDataPtr) : M (World Self Data) unit :=
  λ w, let '(r, mem) := IAggregateFunction.create f (self w) place (memory w) in
       (r, Build_World (self w) mem (arguments_set w) (updated w ∖ {[place]})).

(** [destroy] is [noexcept]: it returns. *)
Definition destroy (place : AggregateDataPtr) : M (World Self Data) unit :=
  λ w, (Returned tt,
        Build_World (self w) (IAggregateFunction.destroy f (self w) place (memory w))
          (arguments_set w) (updated w)).

(** Modelled from the spec: no body of [add] is among the sources.  It
    "folds one row's values into the state at address": the body works on
    the object at [place].  Nothing checks that [setArguments] has been
    called: the call goes straight to the body. *)
Definition add (place : AggregateDataPtr) (columns : list IColumn) (row_num : N)
  : M (World Self Data) unit :=
  (w <- get ;;
   at_place place (IAggregateFunction.add f (self w) columns row_num))%call.

(** Modelled from the spec: no body of [merge] is among the sources.  It
    "combines the state at otherAddress into the state at address, leaving
    address's state as the authoritative combined result and otherAddress's
    state structurally unchanged": the body reads the object at [rhs], which
    it gets through a pointer to const, and works on the object at [place].
    When both addresses are the same, the body reads the value the object
    had before the call. *)
Definition merge (place : AggregateDataPtr) (rhs : ConstAggregateDataPtr)
  : M (World Self Data) unit :=
  (w <- get ;;
   other <- data rhs ;;
   at_place place (IAggregateFunction.merge f (self w) other))%call.

(** Modelled from the spec: no body of [serialize] or [deserializeMerge] is
    among the sources.  The two methods that write a state out share their
    calling convention: the body reads the state through a pointer to const
    and works on the buffer.  So do the two that read one in: they work on
    the object at [place] and on the buffer.  That an empty state must not be
    serialized is asked of the caller; nothing checks it. *)
Definition write_state (body : Self → Data → M WriteBuffer unit)
    (place : ConstAggregateDataPtr) : M (World Self Data * WriteBuffer) unit :=
  (st <- get ;;
   d <- on_fst (data place) ;;
   on_snd (body (self st.1) d))%call.

Definition read_state (body : Self → M (Data * ReadBuffer) unit)
    (place : AggregateDataPtr) : M (World Self Data * ReadBuffer) unit :=
  (st <- get ;;
   at_place_with place (body (self st.1)))%call.

Definition serialize (place : ConstAggregateDataPtr)
  : M (World Self Data * WriteBuffer) unit :=
  write_state (IAggregateFunction.serialize f) place.

Definition deserializeMerge (place : AggregateDataPtr)
  : M (World Self Data * ReadBuffer) unit :=
  read_state (IAggregateFunction.deserializeMerge f) place.

Definition serializeText (place : ConstAggregateDataPtr)
  : M (World Self Data * WriteBuffer) unit :=
  match IAggregateFunction.serializeText f with
  | Some body => write_state body place
  | None => default_serializeText f place
  end.

Definition deserializeMergeText (place : AggregateDataPtr)
  : M (World Self Data * ReadBuffer) unit :=
  match IAggregateFunction.deserializeMergeText f with
  | Some body => read_state body place
  | None => default_deserializeMergeText f place
  end.

(** Modelled from the spec: no body of [insertResultInto] is among the
    sources.  It "finalizes state into one output value appended to
    outputColumn" and "does not mutate or destroy the state": the body reads
    the object at [place], which it gets through a pointer to const, and works
    on the column.  Whether the call may be made at all is what [canBeFinal]
    tells the caller; the call itself does not ask. *)
Definition insertResultInto (place : ConstAggregateDataPtr)
  : M (World Self Data * IColumn) unit :=
  (st <- get ;;
   d <- on_fst (data place) ;;
   on_snd (IAggregateFunction.insertResultInto f (self st.1) d))%call.

End Calls.
End Call.

(** ** template <typename T> class IAggregateFunctionHelper *)

Module IAggregateFunctionHelper.

(** Modelled from the spec: what the compiler reports about a state layout
    [T] is not in the sources.  A layout is the list of its members; a member
    is a fixed-size numeric field or a member owning a dynamically-sized
    buffer. *)
Inductive Member : Type :=
| Numeric (size : N)
| DynamicBuffer.

(** A member owning a buffer has a destructor that releases it. *)
Definition member_needs_destruction (m : Member) : bool :=
  match m with
  | Numeric _ => false
  | DynamicBuffer => true
  end.

(** Modelled from the spec: the builtin [__has_trivial_destructor(T)] for a
    struct without a destructor of its own: every member is trivially
    destructible. *)
Definition has_trivial_destructor (members : list Member) : bool :=
  forallb (λ m, negb (member_needs_destruction m)) members.

(** A layout needs explicit destruction when one of its members does. *)
Definition needs_destruction (members : list Member) : Prop :=
  ∃ m, m ∈ members ∧ member_needs_destruction m = true.

Definition is_numeric (m : Member) : Prop := ∃ size, m = Numeric size.

(** A state layout [T]: what [new (place) T] runs, the members of [T],
    [sizeof(T)] and [__alignof__(T)].  [constructor] is the outcome of [T]'s
    default constructor: the value it builds, or the exception it throws.  It
    is [None] for a [T] that has none (no constructor of its own, no member
    initialiser, numeric members only): default-initialisation then writes
    nothing.  A member owning a buffer always has a constructor to run.  (A
    constructor that leaves part of the object without a value is outside
    this model.) *)
Class StateLayout (T : Type) : Type := {
  constructor : option (Outcome T);
  members : list Member;
  sizeof : N;
  alignof : N;
  buffers_are_constructed :
    has_trivial_destructor members = false → is_Some constructor
}.
Arguments constructor T {_}.
Arguments members T {_}.
Arguments sizeof T {_}.
Arguments alignof T {_}.

Section Helper.
Context {Self : Type} (T : Type) `{StateLayout T}.

(** [new (place) Data;] default-initialises: it runs [T]'s default
    constructor at [place] when [T] has one, and writes nothing otherwise,
    so that what could be read at [place] before can still be read.  A
    constructor that throws leaves nothing to rely on at [place]. *)
Definition create (this : Self) (place : AggregateDataPtr) : M (gmap N T) unit :=
  λ mem, match constructor T with
         | None => (Returned tt, mem)
         | Some (Returned obj) => (Returned tt, <[place := obj]> mem)
         | Some (Thrown e) => (Thrown e, delete place mem)
         | Some PreconditionViolation => (PreconditionViolation, delete place mem)
         end.

(** [data(place).~Data();] runs the destructors of the members that have
    one.  For a trivially destructible [T] there is none and nothing happens;
    otherwise the buffers are released and no object is left at [place]. *)
Definition destroy (this : Self) (place : AggregateDataPtr) (mem : gmap N T)
  : gmap N T :=
  if has_trivial_destructor (members T) then mem else delete place mem.

(** [return __has_trivial_destructor(Data);] *)
Definition hasTrivialDestructor (this : Self) : bool :=
  has_trivial_destructor (members T).

(** [return sizeof(Data);] *)
Definition sizeOfData (this : Self) : N := sizeof T.

(** [return __alignof__(Data);] *)
Definition alignOfData (this : Self) : N := alignof T.

(** What a class deriving from the helper still has to define, and what it
    may override. *)
Record derived : Type := {
  getName : Self → string;
  setArguments : DataTypes → M Self unit;
  setParameters : option (Array → M Self unit);
  getReturnType : Self → DataTypePtr;
  add : Self → list IColumn → N → M T unit;
  merge : Self → T → M T unit;
  serialize : Self → T → M WriteBuffer unit;
  deserializeMerge : Self → M (T * ReadBuffer) unit;
  serializeText : option (Self → T → M WriteBuffer unit);
  deserializeMergeText : option (Self → M (T * ReadBuffer) unit);
  insertResultInto : Self → T → M IColumn unit;
  canBeFinal : option (Self → bool)
}.

(** The complete class: the helper's five methods and the derived class's. *)
Definition vtable_of (d : derived) : IAggregateFunction.vtable Self T := {|
  IAggregateFunction.getName := getName d;
  IAggregateFunction.setArguments := setArguments d;
  IAggregateFunction.setParameters := setParameters d;
  IAggregateFunction.getReturnType := getReturnType d;
  IAggregateFunction.create := create;
  IAggregateFunction.destroy := destroy;
  IAggregateFunction.hasTrivialDestructor := hasTrivialDestructor;
  IAggregateFunction.sizeOfData := sizeOfData;
  IAggregateFunction.alignOfData := alignOfData;
  IAggregateFunction.add := add d;
  IAggregateFunction.merge := merge d;
  IAggregateFunction.serialize := serialize d;
  IAggregateFunction.deserializeMerge := deserializeMerge d;
  IAggregateFunction.serializeText := serializeText d;
  IAggregateFunction.deserializeMergeText := deserializeMergeText d;
  IAggregateFunction.insertResultInto := insertResultInto d;
  IAggregateFunction.canBeFinal := canBeFinal d
|}.

End Helper.
Arguments vtable_of {Self} T {_} d.

End IAggregateFunctionHelper.

(** ** Call sequences *)

(** One call of the engine on a descriptor.  Buffers and columns belong to
    the caller: a request carries them in, and what the call leaves in them
    is the caller's business, not the world's. *)
Inductive Request : Type :=
| SetArguments (arguments : DataTypes)
| SetParameters (params : Array)
| Create (place : AggregateDataPtr)
| Destroy (place : AggregateDataPtr)
| Add (place : AggregateDataPtr) (columns : list IColumn) (row_num : N)
| Merge (place : AggregateDataPtr) (rhs : ConstAggregateDataPtr)
| Serialize (place : ConstAggregateDataPtr) (buf : WriteBuffer)
| DeserializeMerge (place : AggregateDataPtr) (buf : ReadBuffer)
| SerializeText (place : ConstAggregateDataPtr) (buf : WriteBuffer)
| DeserializeMergeText (place : AggregateDataPtr) (buf : ReadBuffer)
| InsertResultInto (place : ConstAggregateDataPtr) (to : IColumn).

Definition is_SetArguments (req : Request) : bool :=
  match req with SetArguments _ => true | _ => false end.

Definition is_Destroy (req : Request) : bool :=
  match req with Destroy _ => true | _ => false end.

(** [add], [merge] and [serialize]. *)
Definition is_add_merge_serialize (req : Request) : bool :=
  match req with
  | Add _ _ _ | Merge _ _ | Serialize _ _ => true
  | _ => false
  end.

(** Forget the buffer once the call is over. *)
Definition with_buffer {S B A} (b : B) (m : M (S * B) A) : M S A :=
  λ s, let '(r, (s', _)) := m (s, b) in (r, s').

Section Runs.
Context {Self Data : Type} (f : IAggregateFunction.vtable Self Data).

Definition perform (req : Request) : M (IAggregateFunction.World Self Data) unit :=
  match req with
  | SetArguments arguments => Call.setArguments f arguments
  | SetParameters params => Call.setParameters f params
  | Create place => Call.create f place
  | Destroy place => Call.destroy f place
  | Add place columns row_num => Call.add f place columns row_num
  | Merge place rhs => Call.merge f place rhs
  | Serialize place buf => with_buffer buf (Call.serialize f place)
  | DeserializeMerge place buf => with_buffer buf (Call.deserializeMerge f place)
  | SerializeText place buf => with_buffer buf (Call.serializeText f place)
  | DeserializeMergeText place buf => with_buffer buf (Call.deserializeMergeText f place)
  | InsertResultInto place to => with_buffer to (Call.insertResultInto f place)
  end.

(** Make the calls one after the other, whatever their outcomes, and
    collect the outcomes. *)
Fixpoint run (reqs : list Request) (w : IAggregateFunction.World Self Data)
  : list (Outcome unit) * IAggregateFunction.World Self Data :=
  match reqs with
  | [] => ([], w)
  | req :: rest =>
      let '(r, w') := perform req w in
      let '(rs, w'') := run rest w' in
      (r :: rs, w'')
  end.

End Runs.

(** ** Aggregate functions as reductions *)

(** Modelled from the spec: [merge], [serialize], [deserializeMerge] and
    [insertResultInto] are pure virtual and no aggregate function is among
    the sources.  The spec calls an aggregate function "a reduction over many
    input rows producing one summary value, computable incrementally and
    mergeably": [empty] is the state [create] makes, [combine] merges two
    partial states, [encode] is the blob of a state and [result] its
    finalization. *)
Record Reduction (Data : Type) : Type := {
  empty : Data;
  combine : Data → Data → Data;
  encode : Data → list byte;
  result : Data → Field
}.
Arguments empty {Data} _.
Arguments combine {Data} _ _ _.
Arguments encode {Data} _ _.
Arguments result {Data} _ _.

(** Modelled from the spec: the function [f] computes the reduction [R].
    [deserializeMerge] is "equivalent to constructing a temporary state from
    the blob and calling merge". *)
Record implements {Self Data : Type}
    (f : IAggregateFunction.vtable Self Data) (R : Reduction Data) : Prop := {
  implements_create : ∀ this place mem,
    IAggregateFunction.create f this place mem
    = (Returned tt, <[place := empty R]> mem);
  implements_merge : ∀ this rhs d,
    IAggregateFunction.merge f this rhs d = (Returned tt, combine R d rhs);
  implements_serialize : ∀ this d buf,
    IAggregateFunction.serialize f this d buf = (Returned tt, buf ++ encode R d);
  implements_deserializeMerge : ∀ this d tmp rest,
    IAggregateFunction.deserializeMerge f this (d, encode R tmp ++ rest)
    = (Returned tt, (combine R d tmp, rest));
  implements_insertResultInto : ∀ this d to,
    IAggregateFunction.insertResultInto f this d to
    = (Returned tt, to ++ [result R d]);
  implements_canBeFinal : ∀ w, Call.canBeFinal f w = true
}.

(** Finalize the state at [place] into the column [to]: the outcome and the
    column afterwards. *)
Definition finalize {Self Data : Type} (f : IAggregateFunction.vtable Self Data)
    (place : ConstAggregateDataPtr) (to : IColumn)
    (w : IAggregateFunction.World Self Data) : Outcome unit * IColumn :=
  let '(r, (_, to')) := Call.insertResultInto f place (w, to) in (r, to').

(** Run [prog], then finalize the state at [place] into the column [to]. *)
Definition then_finalize {Self Data : Type} (f : IAggregateFunction.vtable Self Data)
    (prog : M (IAggregateFunction.World Self Data) unit)
    (place : ConstAggregateDataPtr) (to : IColumn)
    (w : IAggregateFunction.World Self Data)
  : Outcome unit * (Outcome unit * IColumn) :=
  let '(r, w') := prog w in (r, finalize f place to w').

(** ** A concrete function: count *)

Module AggregateFunctionCount.
Import IAggregateFunctionHelper.

(** A [UInt64] field holds its value modulo 2^64. *)
Definition wrap64 (n : N) : N := n mod 2 ^ 64.

Definition byte_of_N (n : N) : byte := default Byte.x00 (Byte.of_N (n mod 256)).

(** [k] bytes, least significant first. *)
Fixpoint encode_le (k : nat) (n : N) : list byte :=
  match k with
  | O => []
  | S k' => byte_of_N n :: encode_le k' (n / 256)
  end.

Fixpoint decode_le (bytes : list byte) : N :=
  match bytes with
  | [] => 0
  | b :: rest => Byte.to_N b + 256 * decode_le rest
  end.

(** Modelled from the spec: the state of count is one 64-bit unsigned
    counter, which its constructor sets to zero. *)
#[export] Instance layout : StateLayout N := {|
  constructor := Some (Returned 0);
  members := [Numeric 8];
  sizeof := 8;
  alignof := 8;
  buffers_are_constructed := λ _, ex_intro _ (Returned 0) eq_refl
|}.

(** The same counter declared without a constructor:
    [struct Data { UInt64 count; };]. *)
Definition plain_layout : StateLayout N := {|
  constructor := None;
  members := [Numeric 8];
  sizeof := 8;
  alignof := 8;
  buffers_are_constructed := λ H : true = false,
    match H in _ = b return (if b then True else is_Some None) with
    | eq_refl => I
    end
|}.

(** Modelled from the spec: no aggregate function is among the sources; the
    spec's scenarios use "count".  It accepts any arguments, counts the rows
    added, merges by adding the counts, writes the counter as 8 bytes and
    reports it as its result. *)
Definition methods : derived (Self := DataTypes) N := {|
  getName := λ _, "count";
  setArguments := λ arguments, put arguments;
  setParameters := None;
  getReturnType := λ _, "UInt64";
  add := λ _ _ _ d, (Returned tt, wrap64 (d + 1));
  merge := λ _ rhs d, (Returned tt, wrap64 (d + rhs));
  serialize := λ _ d buf, (Returned tt, buf ++ encode_le 8 d);
  deserializeMerge := λ _ '(d, buf),
    if decide (8 ≤ length buf)%nat
    then (Returned tt, (wrap64 (d + decode_le (take 8 buf)), drop 8 buf))
    else (Thrown {| message := "Attempt to read after eof";
                    code := ErrorCodes.OTHER 32 |}, (d, buf));
  serializeText := None;
  deserializeMergeText := None;
  insertResultInto := λ _ d to, (Returned tt, to ++ [UInt64 (wrap64 d)]);
  canBeFinal := None
|}.

Definition function : IAggregateFunction.vtable DataTypes N := vtable_of N methods.

(** The methods of count on the counter without a constructor. *)
Definition plain_function : IAggregateFunction.vtable DataTypes N :=
  @vtable_of DataTypes N plain_layout methods.

Definition reduction : Reduction N := {|
  empty := 0;
  combine := λ a b, wrap64 (a + b);
  encode := encode_le 8;
  result := λ d, UInt64 (wrap64 d)
|}.

(** A world for the examples: arguments bound, 100 rows counted at address
    0 and 50 at address 8, a fresh state at address 16. *)
Definition world : IAggregateFunction.World DataTypes N :=
  IAggregateFunction.Build_World ["UInt64"]
    (<[0 := 100]> (<[8 := 50]> (<[16 := 0]> ∅))) true {[0; 8]}.

(** A descriptor nothing has been bound to yet. *)
Definition unbound : IAggregateFunction.World DataTypes N :=
  IAggregateFunction.Build_World [] ∅ false ∅.

End AggregateFunctionCount.

(** ** What a request reaches *)

(** What the function's own body answers to an [add], a [merge] or a
    [serialize], for the descriptor [this] and the objects in [mem]. *)
Definition body_outcome {Self Data : Type} (f : IAggregateFunction.vtable Self Data)
    (this : Self) (mem : gmap N Data) (req : Request) : option (Outcome unit) :=
  match req with
  | Add place columns row_num =>
      obj ← mem !! place;
      Some (IAggregateFunction.add f this columns row_num obj).1
  | Merge place rhs =>
      other ← mem !! rhs;
      obj ← mem !! place;
      Some (IAggregateFunction.merge f this other obj).1
  | Serialize place buf =>
      obj ← mem !! place;
      Some (IAggregateFunction.serialize f this obj buf).1
  | _ => None
  end.

(** The outcomes of the calls other than [destroy]. *)
Fixpoint outcomes_without_destroy (reqs : list Request)
    (outcomes : list (Outcome unit)) : list (Outcome unit) :=
  match reqs, outcomes with
  | req :: reqs', r :: outcomes' =>
      if is_Destroy req then outcomes_without_destroy reqs' outcomes'
      else r :: outcomes_without_destroy reqs' outcomes'
  | _, _ => []
  end.

(** Unfold the calls down to the bodies of the function. *)
Ltac unfold_calls :=
  unfold with_buffer, Call.setArguments, Call.setParameters, Call.create,
    Call.destroy, Call.add, Call.merge, Call.serialize, Call.deserializeMerge,
    Call.serializeText, Call.deserializeMergeText, Call.insertResultInto,
    Call.write_state, Call.read_state, Call.at_place, Call.at_place_with,
    Call.data, IAggregateFunction.default_setParameters,
    IAggregateFunction.default_serializeText,
    IAggregateFunction.default_deserializeMergeText,
    bind, get, put, throw, on_fst, on_snd; cbn.

(** * Verification *)

(** ** The default bodies *)

Section DefaultBodies.
Context {Self Data : Type} (f : IAggregateFunction.vtable Self Data).
Implicit Types (w : IAggregateFunction.World Self Data).

Lemma world_eta w :
  IAggregateFunction.Build_World (IAggregateFunction.self w)
    (IAggregateFunction.memory w) (IAggregateFunction.arguments_set w)
    (IAggregateFunction.updated w) = w.
Proof. by destruct w. Qed.

Lemma setParameters_not_overridden params w :
  IAggregateFunction.setParameters f = None →
  Call.setParameters f params w
  = (Thrown {| message := "Aggregate function " +:+ Call.getName f w
                          +:+ " doesn't allow parameters.";
               code := ErrorCodes.AGGREGATE_FUNCTION_DOESNT_ALLOW_PARAMETERS |}, w).
Proof.
  intros Hnone. unfold Call.setParameters. rewrite Hnone. cbn.
  by rewrite world_eta.
Qed.

Lemma serializeText_not_overridden place w (buf : WriteBuffer) :
  IAggregateFunction.serializeText f = None →
  Call.serializeText f place (w, buf)
  = (Thrown {| message := "Method serializeText is not supported for "
                          +:+ Call.getName f w +:+ ".";
               code := ErrorCodes.NOT_IMPLEMENTED |}, (w, buf)).
Proof. intros Hnone. unfold Call.serializeText. by rewrite Hnone. Qed.

Lemma deserializeMergeText_not_overridden place w (buf : ReadBuffer) :
  IAggregateFunction.deserializeMergeText f = None →
  Call.deserializeMergeText f place (w, buf)
  = (Thrown {| message := "Method deserializeMergeText is not supported for "
                          +:+ Call.getName f w +:+ ".";
               code := ErrorCodes.NOT_IMPLEMENTED |}, (w, buf)).
Proof. intros Hnone. unfold Call.deserializeMergeText. by rewrite Hnone. Qed.

End DefaultBodies.

(** C3.  On a function that does not override [setParameters], the call
    throws for every parameter array; the exception carries the code
    AGGREGATE_FUNCTION_DOESNT_ALLOW_PARAMETERS and its message names the
    function. *)
Theorem setParameters_default_throws {Self Data : Type}
    (f : IAggregateFunction.vtable Self Data) :
  IAggregateFunction.setParameters f = None →
  ∀ (params : Array) (w : IAggregateFunction.World Self Data),
  ∃ e, (Call.setParameters f params w).1 = Thrown e
       ∧ code e = ErrorCodes.AGGREGATE_FUNCTION_DOESNT_ALLOW_PARAMETERS
       ∧ names (message e) (Call.getName f w).
Proof.
  intros Hnone params w. rewrite setParameters_not_overridden by done.
  eexists. split; [reflexivity|]. split; [reflexivity|].
  by exists "Aggregate function ", " doesn't allow parameters.".
Qed.

Lemma setParameters_default_throws_witness :
  IAggregateFunction.setParameters AggregateFunctionCount.function = None
  ∧ ∃ e, (Call.setParameters AggregateFunctionCount.function [UInt64 3]
            AggregateFunctionCount.world).1 = Thrown e
         ∧ code e = ErrorCodes.AGGREGATE_FUNCTION_DOESNT_ALLOW_PARAMETERS
         ∧ names (message e) "count".
Proof.
  split; [reflexivity|].
  apply (setParameters_default_throws AggregateFunctionCount.function).
  reflexivity.
Defined.

(** C5.  On a function that does not override [serializeText]
    (respectively [deserializeMergeText]), the call throws for every address
    and every buffer, the state at the address being constructed or not; the
    exception carries the code NOT_IMPLEMENTED and its message names the
    function. *)
Theorem text_defaults_throw_not_implemented {Self Data : Type}
    (f : IAggregateFunction.vtable Self Data) :
  (IAggregateFunction.serializeText f = None →
   ∀ place (w : IAggregateFunction.World Self Data) (buf : WriteBuffer),
   ∃ e, (Call.serializeText f place (w, buf)).1 = Thrown e
        ∧ code e = ErrorCodes.NOT_IMPLEMENTED
        ∧ names (message e) (Call.getName f w))
  ∧ (IAggregateFunction.deserializeMergeText f = None →
     ∀ place (w : IAggregateFunction.World Self Data) (buf : ReadBuffer),
     ∃ e, (Call.deserializeMergeText f place (w, buf)).1 = Thrown e
          ∧ code e = ErrorCodes.NOT_IMPLEMENTED
          ∧ names (message e) (Call.getName f w)).
Proof.
  split; intros Hnone place w buf.
  - rewrite serializeText_not_overridden by done.
    eexists. split; [reflexivity|]. split; [reflexivity|].
    by exists "Method serializeText is not supported for ", ".".
  - rewrite deserializeMergeText_not_overridden by done.
    eexists. split; [reflexivity|]. split; [reflexivity|].
    by exists "Method deserializeMergeText is not supported for ", ".".
Qed.

Lemma text_defaults_throw_not_implemented_witness :
  (∃ e, (Call.serializeText AggregateFunctionCount.function 0
           (AggregateFunctionCount.world, [])).1 = Thrown e
        ∧ code e = ErrorCodes.NOT_IMPLEMENTED ∧ names (message e) "count")
  ∧ (∃ e, (Call.deserializeMergeText AggregateFunctionCount.function 99
             (AggregateFunctionCount.unbound, [Byte.x01])).1 = Thrown e
          ∧ code e = ErrorCodes.NOT_IMPLEMENTED ∧ names (message e) "count").
Proof.
  destruct (text_defaults_throw_not_implemented AggregateFunctionCount.function)
    as [Hwrite Hread].
  split.
  - apply (Hwrite eq_refl 0 AggregateFunctionCount.world []).
  - apply (Hread eq_refl 99 AggregateFunctionCount.unbound [Byte.x01]).
Defined.

(** C8.  On a function that does not override it, [canBeFinal] returns
    true. *)
Theorem canBeFinal_default_true {Self Data : Type}
    (f : IAggregateFunction.vtable Self Data) :
  IAggregateFunction.canBeFinal f = None →
  ∀ w : IAggregateFunction.World Self Data, Call.canBeFinal f w = true.
Proof. intros Hnone w. unfold Call.canBeFinal. by rewrite Hnone. Qed.

Lemma canBeFinal_default_true_witness :
  IAggregateFunction.canBeFinal AggregateFunctionCount.function = None
  ∧ Call.canBeFinal AggregateFunctionCount.function AggregateFunctionCount.world = true.
Proof.
  split; [reflexivity|].
  apply (canBeFinal_default_true AggregateFunctionCount.function). reflexivity.
Defined.

(** C10.  When the default [setParameters], [serializeText] or
    [deserializeMergeText] throws, nothing has changed: the descriptor, the
    memory with every state in it, and the buffer passed in are as before the
    call; the default [deserializeMergeText] has read nothing. *)
Theorem default_bodies_throw_without_effect {Self Data : Type}
    (f : IAggregateFunction.vtable Self Data) :
  (IAggregateFunction.setParameters f = None →
   ∀ params (w : IAggregateFunction.World Self Data),
   (Call.setParameters f params w).2 = w)
  ∧ (IAggregateFunction.serializeText f = None →
     ∀ place (w : IAggregateFunction.World Self Data) (buf : WriteBuffer),
     (Call.serializeText f place (w, buf)).2 = (w, buf))
  ∧ (IAggregateFunction.deserializeMergeText f = None →
     ∀ place (w : IAggregateFunction.World Self Data) (buf : ReadBuffer),
     (Call.deserializeMergeText f place (w, buf)).2 = (w, buf)).
Proof.
  repeat split; intros Hnone **.
  - by rewrite setParameters_not_overridden.
  - by rewrite serializeText_not_overridden.
  - by rewrite deserializeMergeText_not_overridden.
Qed.

Lemma default_bodies_throw_without_effect_witness :
  (Call.setParameters AggregateFunctionCount.function [UInt64 3]
     AggregateFunctionCount.world).2 = AggregateFunctionCount.world
  ∧ (Call.serializeText AggregateFunctionCount.function 0
       (AggregateFunctionCount.world, [Byte.x2a])).2
    = (AggregateFunctionCount.world, [Byte.x2a])
  ∧ (Call.deserializeMergeText AggregateFunctionCount.function 0
       (AggregateFunctionCount.world, [Byte.x01; Byte.x02])).2
    = (AggregateFunctionCount.world, [Byte.x01; Byte.x02]).
Proof.
  destruct (default_bodies_throw_without_effect AggregateFunctionCount.function)
    as (Hparams & Hwrite & Hread).
  split; [|split].
  - apply (Hparams eq_refl).
  - apply (Hwrite eq_refl).
  - apply (Hread eq_refl).
Defined.

(** ** The generic state helper *)

Section HelperFacts.
Import IAggregateFunctionHelper.

Lemma has_trivial_destructor_iff (layout : list Member) :
  has_trivial_destructor layout = true ↔ ¬ needs_destruction layout.
Proof.
  unfold has_trivial_destructor, needs_destruction.
  induction layout as [|m layout IH]; cbn.
  - split; [|done]. intros _ (m & Hin & _). by apply elem_of_nil in Hin.
  - rewrite andb_true_iff, IH, negb_true_iff. split.
    + intros [Hm Hrest] (m' & Hin & Hneeds).
      apply elem_of_cons in Hin as [->|Hin]; [congruence|].
      apply Hrest. eauto.
    + intros Hnone. split.
      * destruct (member_needs_destruction m) eqn:Hm; [|done].
        exfalso. apply Hnone. exists m. split; [apply elem_of_cons; auto|done].
      * intros (m' & Hin & Hneeds). apply Hnone.
        exists m'. split; [apply elem_of_cons; auto|done].
Qed.

Lemma numeric_has_trivial_destructor (layout : list Member) :
  Forall is_numeric layout → has_trivial_destructor layout = true.
Proof.
  intros Hall. apply has_trivial_destructor_iff.
  intros (m & Hin & Hneeds).
  rewrite Forall_forall in Hall. destruct (Hall m Hin) as [size ->]. done.
Qed.

Lemma buffer_has_no_trivial_destructor (layout : list Member) :
  DynamicBuffer ∈ layout → has_trivial_destructor layout = false.
Proof.
  intros Hin. apply not_true_is_false. rewrite has_trivial_destructor_iff.
  intros Hnone. apply Hnone. by exists DynamicBuffer.
Qed.

(** A counter next to a growing array of values owns a buffer. *)
Example counter_and_array_not_trivially_destructible :
  has_trivial_destructor [Numeric 8; DynamicBuffer] = false
  ∧ has_trivial_destructor [Numeric 8; Numeric 4] = true.
Proof. split; reflexivity. Qed.

End HelperFacts.

(** C4, as the helper does it.  For every state layout [T] and every class
    built on the helper: [create] default-initialises a [T] at the address:
    when [T] has a default constructor it leaves there the value the
    constructor builds, or throws what the constructor throws and leaves
    nothing to read there; when [T] has none it writes nothing.  [destroy]
    calls [T]'s destructor at the address: nothing changes when
    [hasTrivialDestructor] is true, the object is gone when it is false.
    [hasTrivialDestructor] is true exactly when the layout needs no
    destruction (true when every member is a fixed-size numeric field, false
    when a member owns a dynamically-sized buffer, and then [create] has a
    constructor to run), [sizeOfData] is [sizeof(T)] and [alignOfData] is
    [T]'s alignment. *)
Theorem helper_methods_follow_layout {Self T : Type}
    {layout : IAggregateFunctionHelper.StateLayout T}
    (d : IAggregateFunctionHelper.derived (Self := Self) T) :
  let f := IAggregateFunctionHelper.vtable_of T d in
  (∀ this place mem obj,
     IAggregateFunctionHelper.constructor T = Some (Returned obj) →
     IAggregateFunction.create f this place mem
     = (Returned tt, <[place := obj]> mem))
  ∧ (∀ this place mem e,
       IAggregateFunctionHelper.constructor T = Some (Thrown e) →
       ∃ mem', IAggregateFunction.create f this place mem = (Thrown e, mem')
               ∧ mem' !! place = None)
  ∧ (∀ this place mem,
       IAggregateFunctionHelper.constructor T = None →
       IAggregateFunction.create f this place mem = (Returned tt, mem))
  ∧ (∀ this place mem,
       IAggregateFunction.hasTrivialDestructor f this = true →
       IAggregateFunction.destroy f this place mem = mem)
  ∧ (∀ this place mem,
       IAggregateFunction.hasTrivialDestructor f this = false →
       IAggregateFunction.destroy f this place mem = delete place mem
       ∧ is_Some (IAggregateFunctionHelper.constructor T))
  ∧ (∀ this, IAggregateFunction.hasTrivialDestructor f this = true
             ↔ ¬ IAggregateFunctionHelper.needs_destruction
                   (IAggregateFunctionHelper.members T))
  ∧ (∀ this, Forall IAggregateFunctionHelper.is_numeric
               (IAggregateFunctionHelper.members T) →
             IAggregateFunction.hasTrivialDestructor f this = true)
  ∧ (∀ this, IAggregateFunctionHelper.DynamicBuffer
               ∈ IAggregateFunctionHelper.members T →
             IAggregateFunction.hasTrivialDestructor f this = false)
  ∧ (∀ this, IAggregateFunction.sizeOfData f this = IAggregateFunctionHelper.sizeof T)
  ∧ (∀ this, IAggregateFunction.alignOfData f this = IAggregateFunctionHelper.alignof T).
Proof.
  cbv zeta. split_and!.
  - intros this place mem obj Hctor. cbn.
    unfold IAggregateFunctionHelper.create. by rewrite Hctor.
  - intros this place mem e Hctor. eexists. split.
    + cbn. unfold IAggregateFunctionHelper.create. by rewrite Hctor.
    + apply lookup_delete_eq.
  - intros this place mem Hctor. cbn.
    unfold IAggregateFunctionHelper.create. by rewrite Hctor.
  - intros this place mem Htrivial. cbn in *.
    unfold IAggregateFunctionHelper.destroy.
    unfold IAggregateFunctionHelper.hasTrivialDestructor in Htrivial.
    by rewrite Htrivial.
  - intros this place mem Htrivial. cbn in *.
    unfold IAggregateFunctionHelper.destroy.
    unfold IAggregateFunctionHelper.hasTrivialDestructor in Htrivial.
    rewrite Htrivial. split; [done|].
    by apply IAggregateFunctionHelper.buffers_are_constructed.
  - intros this. apply has_trivial_destructor_iff.
  - intros this. apply numeric_has_trivial_destructor.
  - intros this. apply buffer_has_no_trivial_destructor.
  - done.
  - done.
Qed.

Lemma helper_methods_follow_layout_witness :
  IAggregateFunction.create AggregateFunctionCount.function [] 24 ∅
  = (Returned tt, <[24 := 0]> ∅)
  ∧ IAggregateFunction.destroy AggregateFunctionCount.function [] 0
      (IAggregateFunction.memory AggregateFunctionCount.world)
    = IAggregateFunction.memory AggregateFunctionCount.world
  ∧ IAggregateFunction.hasTrivialDestructor AggregateFunctionCount.function [] = true
  ∧ IAggregateFunction.sizeOfData AggregateFunctionCount.function [] = 8.
Proof.
  destruct (helper_methods_follow_layout (layout := AggregateFunctionCount.layout)
              AggregateFunctionCount.methods)
    as (Hctor & _ & _ & Htrivial & _ & _ & Hnumeric & _ & Hsize & _).
  split_and!.
  - apply (Hctor [] 24 ∅ 0). reflexivity.
  - apply (Htrivial [] 0). reflexivity.
  - apply Hnumeric. repeat constructor. by exists 8.
  - apply Hsize.
Defined.

(** C4, as the claim has it, fails on a layout without a constructor.  For
    [struct Data { UInt64 count; };] the helper's [create] writes nothing: a
    7 left at the address is still there, not a zero, and where nothing could
    be read nothing can be read afterwards; so there is no default value that
    [create] would place. *)
Lemma create_without_constructor_places_no_value :
  IAggregateFunction.create AggregateFunctionCount.plain_function [] 0 (<[0 := 7]> ∅)
  = (Returned tt, <[0 := 7]> ∅)
  ∧ IAggregateFunction.create AggregateFunctionCount.plain_function [] 0 ∅
    = (Returned tt, ∅)
  ∧ ¬ (∃ obj : N, ∀ place mem,
         IAggregateFunction.create AggregateFunctionCount.plain_function [] place mem
         = (Returned tt, <[place := obj]> mem)).
Proof.
  assert (IAggregateFunction.create AggregateFunctionCount.plain_function [] 0 ∅
          = (Returned tt, ∅)) as Hnothing by reflexivity.
  split_and!; [reflexivity|exact Hnothing|].
  intros [obj Hall]. specialize (Hall 0 ∅). rewrite Hnothing in Hall.
  assert ((∅ : gmap N N) = <[0 := obj]> ∅) as Hmem by exact (f_equal snd Hall).
  assert ((<[0 := obj]> (∅ : gmap N N)) !! 0 = Some obj) as Hlookup
    by apply lookup_insert_eq.
  rewrite <- Hmem in Hlookup. by rewrite lookup_empty in Hlookup.
Qed.

(** ** What a call leaves alone *)

Section Frames.
Context {Self Data : Type} (f : IAggregateFunction.vtable Self Data).
Implicit Types (w : IAggregateFunction.World Self Data) (place rhs : N).

Lemma merge_constructed w place rhs (A B : Data) :
  IAggregateFunction.memory w !! place = Some A →
  IAggregateFunction.memory w !! rhs = Some B →
  Call.merge f place rhs w
  = let '(r, A') := IAggregateFunction.merge f (IAggregateFunction.self w) B A in
    (r, Call.store place A' w).
Proof.
  intros HA HB.
  unfold Call.merge, Call.data, Call.at_place, bind, get.
  by rewrite HB, HA.
Qed.

Lemma insertResultInto_world place w (to : IColumn) :
  (Call.insertResultInto f place (w, to)).2.1 = w.
Proof.
  unfold Call.insertResultInto, Call.data, bind, get, on_fst, on_snd. cbn.
  destruct (IAggregateFunction.memory w !! place) as [d|]; [|done].
  by destruct (IAggregateFunction.insertResultInto f _ d to) as [[]].
Qed.

Lemma insertResultInto_constructed place w (to : IColumn) (d : Data) :
  IAggregateFunction.memory w !! place = Some d →
  Call.insertResultInto f place (w, to)
  = let '(r, to') := IAggregateFunction.insertResultInto f
                       (IAggregateFunction.self w) d to in
    (r, (w, to')).
Proof.
  intros Hd.
  unfold Call.insertResultInto, Call.data, bind, get, on_fst, on_snd. cbn.
  rewrite Hd.
  by destruct (IAggregateFunction.insertResultInto f _ d to) as [[]].
Qed.

End Frames.

(** C6.  For two constructed states at different addresses of a bound
    descriptor, [merge(place, rhs)] leaves at [rhs] the value that was there,
    still destroyable by a call of its own, and leaves at [place] what the
    function's merge made of the two. *)
Theorem merge_leaves_source_unchanged {Self Data : Type}
    (f : IAggregateFunction.vtable Self Data)
    (w : IAggregateFunction.World Self Data) (place rhs : N) (A B : Data) :
  place ≠ rhs →
  IAggregateFunction.arguments_set w = true →
  IAggregateFunction.memory w !! place = Some A →
  IAggregateFunction.memory w !! rhs = Some B →
  ∃ r A' w',
    IAggregateFunction.merge f (IAggregateFunction.self w) B A = (r, A')
    ∧ Call.merge f place rhs w = (r, w')
    ∧ IAggregateFunction.memory w' !! rhs = Some B
    ∧ IAggregateFunction.memory w' !! place = Some A'
    ∧ (Call.destroy f rhs w').1 = Returned tt.
Proof.
  intros Hne Hset HA HB.
  destruct (IAggregateFunction.merge f (IAggregateFunction.self w) B A)
    as [r A'] eqn:Hbody.
  exists r, A', (Call.store place A' w).
  rewrite (merge_constructed f w place rhs A B), Hbody by done.
  split_and!; try done.
  - cbn. by rewrite lookup_insert_ne.
  - cbn. apply lookup_insert_eq.
Qed.

Lemma merge_leaves_source_unchanged_witness :
  ∃ r A' w',
    IAggregateFunction.merge AggregateFunctionCount.function ["UInt64"] 50 100 = (r, A')
    ∧ Call.merge AggregateFunctionCount.function 0 8 AggregateFunctionCount.world = (r, w')
    ∧ IAggregateFunction.memory w' !! 8 = Some 50
    ∧ IAggregateFunction.memory w' !! 0 = Some A'
    ∧ (Call.destroy AggregateFunctionCount.function 8 w').1 = Returned tt.
Proof.
  apply (merge_leaves_source_unchanged AggregateFunctionCount.function
           AggregateFunctionCount.world 0 8 100 50); [lia|reflexivity..].
Defined.

(** C7.  [insertResultInto(place, to)] leaves the world as it was: the
    descriptor, every state and the ghost state.  A later [merge] from the
    state or [serialize] of it therefore behaves as it would have before.
    On a constructed state of a bound descriptor that can be final, the
    outcome and the column are those of the function's own body. *)
Theorem insertResultInto_leaves_state_unchanged {Self Data : Type}
    (f : IAggregateFunction.vtable Self Data)
    (w : IAggregateFunction.World Self Data) (place : N) (to : IColumn) :
  let w' := (Call.insertResultInto f place (w, to)).2.1 in
  w' = w
  ∧ (∀ target, Call.merge f target place w' = Call.merge f target place w)
  ∧ (∀ buf, Call.serialize f place (w', buf) = Call.serialize f place (w, buf))
  ∧ (∀ d, IAggregateFunction.arguments_set w = true →
          Call.canBeFinal f w = true →
          IAggregateFunction.memory w !! place = Some d →
          Call.insertResultInto f place (w, to)
          = let '(r, to') := IAggregateFunction.insertResultInto f
                               (IAggregateFunction.self w) d to in
            (r, (w, to'))).
Proof.
  cbv zeta. rewrite insertResultInto_world. split_and!; try done.
  intros d _ _. apply insertResultInto_constructed.
Qed.

Lemma insertResultInto_leaves_state_unchanged_witness :
  (Call.insertResultInto AggregateFunctionCount.function 0
     (AggregateFunctionCount.world, [])).2.1 = AggregateFunctionCount.world
  ∧ Call.insertResultInto AggregateFunctionCount.function 0
      (AggregateFunctionCount.world, [])
    = (Returned tt, (AggregateFunctionCount.world, [UInt64 100])).
Proof.
  destruct (insertResultInto_leaves_state_unchanged AggregateFunctionCount.function
              AggregateFunctionCount.world 0 []) as (Hsame & _ & _ & Hbody).
  split; [exact Hsame|].
  apply (Hbody 100); reflexivity.
Defined.

(** ** Calls before binding *)

Section Binding.
Context {Self Data : Type} (f : IAggregateFunction.vtable Self Data).
Implicit Types (w : IAggregateFunction.World Self Data) (req : Request).

(** An [add], a [merge] or a [serialize] ends as the function's body ends. *)
Lemma perform_body_outcome w req (r : Outcome unit) :
  body_outcome f (IAggregateFunction.self w) (IAggregateFunction.memory w) req
  = Some r →
  (perform f req w).1 = r.
Proof.
  intros Hbody. destruct req; try done; cbn in Hbody; cbn; unfold_calls.
  - destruct (IAggregateFunction.memory w !! place) as [obj|]; [|done].
    cbn in Hbody. injection Hbody as <-.
    by destruct (IAggregateFunction.add f _ columns row_num obj).
  - destruct (IAggregateFunction.memory w !! rhs) as [other|]; [|done].
    cbn in Hbody.
    destruct (IAggregateFunction.memory w !! place) as [obj|]; [|done].
    cbn in Hbody. injection Hbody as <-.
    by destruct (IAggregateFunction.merge f _ other obj).
  - destruct (IAggregateFunction.memory w !! place) as [obj|]; [|done].
    cbn in Hbody. injection Hbody as <-.
    by destruct (IAggregateFunction.serialize f _ obj buf) as [[]].
Qed.

(** Only [setArguments] records that the arguments are set. *)
Lemma perform_stays_unbound w req :
  IAggregateFunction.arguments_set w = false →
  is_SetArguments req = false →
  IAggregateFunction.arguments_set (perform f req w).2 = false.
Proof.
  intros Hunset Hother. destruct req; try done; cbn; unfold_calls;
    repeat case_match; simplify_eq/=; done.
Qed.

Lemma run_cons req reqs w :
  run f (req :: reqs) w
  = ((perform f req w).1 :: (run f reqs (perform f req w).2).1,
     (run f reqs (perform f req w).2).2).
Proof. cbn. destruct (perform f req w). by destruct (run f reqs _). Qed.

End Binding.




(** ** Functions that compute a reduction *)

Section Reductions.
Context {Self Data : Type} (f : IAggregateFunction.vtable Self Data)
        (R : Reduction Data) (Himpl : implements f R).
Implicit Types (w : IAggregateFunction.World Self Data) (place rhs : N).

Lemma merge_implemented w place rhs (A B : Data) :
  IAggregateFunction.arguments_set w = true →
  IAggregateFunction.memory w !! place = Some A →
  IAggregateFunction.memory w !! rhs = Some B →
  Call.merge f place rhs w = (Returned tt, Call.store place (combine R A B) w).
Proof.
  intros _ HA HB. rewrite (merge_constructed f w place rhs A B) by done.
  by rewrite (implements_merge f R Himpl).
Qed.

Lemma finalize_implemented w place (to : IColumn) (A : Data) :
  IAggregateFunction.arguments_set w = true →
  IAggregateFunction.memory w !! place = Some A →
  finalize f place to w = (Returned tt, to ++ [result R A]).
Proof.
  intros _ HA. unfold finalize.
  rewrite (insertResultInto_constructed f place w to A) by done.
  by rewrite (implements_insertResultInto f R Himpl).
Qed.

(** Merge [rhs] into [place], then [rhs'] into [place], and finalize. *)
Lemma merge_twice_then_finalize w place rhs rhs' (A B C : Data) (to : IColumn) :
  IAggregateFunction.arguments_set w = true →
  IAggregateFunction.memory w !! place = Some A →
  IAggregateFunction.memory w !! rhs = Some B →
  IAggregateFunction.memory (Call.store place (combine R A B) w) !! rhs' = Some C →
  then_finalize f (Call.merge f place rhs ;; Call.merge f place rhs')%call place to w
  = (Returned tt, (Returned tt, to ++ [result R (combine R (combine R A B) C)])).
Proof.
  intros Hset HA HB HC. unfold then_finalize, bind.
  rewrite (merge_implemented w place rhs A B) by done.
  rewrite (merge_implemented _ place rhs' (combine R A B) C);
    [|done|cbn; apply lookup_insert_eq|done].
  rewrite (finalize_implemented _ place to (combine R (combine R A B) C));
    [done|done|cbn; apply lookup_insert_eq].
Qed.

Lemma serialize_implemented w place (S : Data) (buf : WriteBuffer) :
  IAggregateFunction.arguments_set w = true →
  IAggregateFunction.memory w !! place = Some S →
  place ∈ IAggregateFunction.updated w →
  Call.serialize f place (w, buf) = (Returned tt, (w, buf ++ encode R S)).
Proof.
  intros _ HS _.
  unfold Call.serialize, Call.write_state, Call.data, bind, get, on_fst, on_snd.
  cbn. rewrite HS.
  by rewrite (implements_serialize f R Himpl).
Qed.

Lemma deserializeMerge_implemented w place (A S : Data) (rest : ReadBuffer) :
  IAggregateFunction.arguments_set w = true →
  IAggregateFunction.memory w !! place = Some A →
  Call.deserializeMerge f place (w, encode R S ++ rest)
  = (Returned tt, (Call.store place (combine R A S) w, rest)).
Proof.
  intros _ HA.
  unfold Call.deserializeMerge, Call.read_state, Call.at_place_with, bind, get.
  cbn. rewrite HA. by rewrite (implements_deserializeMerge f R Himpl).
Qed.

Lemma create_implemented w place :
  IAggregateFunction.arguments_set w = true →
  Call.create f place w
  = (Returned tt,
     IAggregateFunction.Build_World (IAggregateFunction.self w)
       (<[place := empty R]> (IAggregateFunction.memory w)) true
       (IAggregateFunction.updated w ∖ {[place]})).
Proof.
  intros Hset. unfold Call.create.
  by rewrite Hset, (implements_create f R Himpl).
Qed.

End Reductions.

(** ** Count computes a reduction *)

Section CountFacts.
Import AggregateFunctionCount.

Lemma wrap64_add_l (a b : N) : wrap64 (wrap64 a + b) = wrap64 (a + b).
Proof. unfold wrap64. apply N.Div0.add_mod_idemp_l. Qed.

Lemma wrap64_add_r (a b : N) : wrap64 (a + wrap64 b) = wrap64 (a + b).
Proof. unfold wrap64. apply N.Div0.add_mod_idemp_r. Qed.

Lemma count_combine_assoc : Assoc (=) (combine reduction).
Proof.
  intros a b c. cbn. rewrite wrap64_add_l, wrap64_add_r. f_equal. lia.
Qed.

Lemma count_combine_comm : Comm (=) (combine reduction).
Proof. intros a b. cbn. f_equal. lia. Qed.

Lemma count_empty_identity (d : N) :
  result reduction (combine reduction (empty reduction) d) = result reduction d.
Proof. cbn. f_equal. unfold wrap64. rewrite N.add_0_l. apply N.Div0.mod_mod. Qed.

Lemma to_N_byte_of_N (n : N) : Byte.to_N (byte_of_N n) = n mod 256.
Proof.
  unfold byte_of_N.
  destruct (Byte.of_N (n mod 256)) as [b|] eqn:Hb.
  - by apply Byte.to_of_N.
  - apply Byte.of_N_None_iff in Hb.
    pose proof (N.mod_upper_bound n 256). lia.
Qed.

Lemma length_encode_le (k : nat) (n : N) : length (encode_le k n) = k.
Proof. revert n. induction k as [|k IH]; intros n; cbn; [done|]. by rewrite IH. Qed.

Lemma decode_encode_le (k : nat) (n : N) :
  decode_le (encode_le k n) = n mod 256 ^ N.of_nat k.
Proof.
  revert n. induction k as [|k IH]; intros n.
  - cbn. by rewrite N.mod_1_r.
  - cbn [encode_le decode_le]. rewrite IH, to_N_byte_of_N.
    rewrite Nat2N.inj_succ, N.pow_succ_r'.
    rewrite N.Div0.mod_mul_r. lia.
Qed.

Lemma decode_encode_64 (n : N) : decode_le (encode_le 8 n) = wrap64 n.
Proof. by rewrite decode_encode_le. Qed.

Lemma count_implements : implements function reduction.
Proof.
  split; try done.
  intros this d tmp rest. cbn -[encode_le decode_le take drop length].
  assert (length (encode_le 8 tmp) = 8%nat) as Hlen by apply length_encode_le.
  rewrite decide_True by (rewrite length_app; lia).
  rewrite take_app_length' by done. rewrite drop_app_length' by done.
  by rewrite decode_encode_64, wrap64_add_r.
Qed.

(** Three shards counted 100, 50 and 25 rows; merged, they finalize to 175. *)
Example distributed_count :
  then_finalize function (Call.merge function 0 8 ;; Call.merge function 0 16)%call 0 []
    (IAggregateFunction.Build_World ["UInt64"]
       (<[0 := 100]> (<[8 := 50]> (<[16 := 25]> ∅))) true {[0; 8; 16]})
  = (Returned tt, (Returned tt, [UInt64 175])).
Proof. vm_compute. reflexivity. Qed.

End CountFacts.





(** * Further properties of the helper *)

(** ** Skipping destroy *)

Section Skipping.
Context {Self T : Type} {layout : IAggregateFunctionHelper.StateLayout T}
        (d : IAggregateFunctionHelper.derived (Self := Self) T).
Implicit Types (w : IAggregateFunction.World Self T) (req : Request).

Lemma destroy_trivial w (place : N) :
  IAggregateFunctionHelper.has_trivial_destructor
    (IAggregateFunctionHelper.members T) = true →
  Call.destroy (IAggregateFunctionHelper.vtable_of T d) place w = (Returned tt, w).
Proof.
  intros Htrivial. unfold Call.destroy. cbn.
  unfold IAggregateFunctionHelper.destroy. rewrite Htrivial.
  by rewrite world_eta.
Qed.

End Skipping.

(** X3.  "Destroying the data is not required": for a class built on the
    helper whose [hasTrivialDestructor] is true, every [destroy] returns and
    changes nothing, so a call sequence with its [destroy] calls left out
    gives the other calls the same outcomes and ends in the same world. *)
Theorem destroy_may_be_skipped {Self T : Type}
    {layout : IAggregateFunctionHelper.StateLayout T}
    (d : IAggregateFunctionHelper.derived (Self := Self) T)
    (reqs : list Request) (w : IAggregateFunction.World Self T) :
  let f := IAggregateFunctionHelper.vtable_of T d in
  IAggregateFunction.hasTrivialDestructor f (IAggregateFunction.self w) = true →
  run f (List.filter (λ req, negb (is_Destroy req)) reqs) w
  = (outcomes_without_destroy reqs (run f reqs w).1, (run f reqs w).2).
Proof.
  cbv zeta. intros Htrivial. cbn in Htrivial.
  unfold IAggregateFunctionHelper.hasTrivialDestructor in Htrivial.
  revert w. induction reqs as [|req reqs IH]; intros w; [done|].
  rewrite (run_cons _ req reqs w). cbn [fst snd outcomes_without_destroy List.filter].
  destruct (is_Destroy req) eqn:Hreq; cbn [negb].
  - destruct req; try done.
    change (perform ?g (Destroy place) w) with (Call.destroy g place w).
    rewrite (destroy_trivial d w place Htrivial). cbn [fst snd]. apply IH.
  - rewrite (run_cons _ req _ w). rewrite IH. reflexivity.
Qed.

Lemma destroy_may_be_skipped_witness :
  run AggregateFunctionCount.function
    (List.filter (λ req, negb (is_Destroy req))
       [Add 0 [] 0; Destroy 0; Merge 8 0; Destroy 8; InsertResultInto 8 []])
    AggregateFunctionCount.world
  = (outcomes_without_destroy
       [Add 0 [] 0; Destroy 0; Merge 8 0; Destroy 8; InsertResultInto 8 []]
       (run AggregateFunctionCount.function
          [Add 0 [] 0; Destroy 0; Merge 8 0; Destroy 8; InsertResultInto 8 []]
          AggregateFunctionCount.world).1,
     (run AggregateFunctionCount.function
        [Add 0 [] 0; Destroy 0; Merge 8 0; Destroy 8; InsertResultInto 8 []]
        AggregateFunctionCount.world).2).
Proof.
  apply (destroy_may_be_skipped (layout := AggregateFunctionCount.layout)
           AggregateFunctionCount.methods
           [Add 0 [] 0; Destroy 0; Merge 8 0; Destroy 8; InsertResultInto 8 []]
           AggregateFunctionCount.world).
  reflexivity.
Defined.
